(** * Maintainer-invitation handlers of the registry service

    A shallow embedding of [services/registry/handlers/maintainers.js]:
    the five route handlers ([maintainers], [invite], [remove], [accept],
    [decline]) as state-passing functions over a world made of the
    Maintainer table, the clock and the ordered trace of effects (requests
    sent to the storage service, row updates, log lines, authorization
    checks).

    Reading notes on the source file.
    - The object literal in [remove] lacks the comma after its
      ['invite.invitee_not_maintainer'] entry; it is read here with the five
      entries it lists.
    - [maintainers] ends in [response.json({ objects })]; no binding named
      [objects] is in scope there, and the embedding resolves the identifier
      against the scope the file really has. *)

From stdpp Require Import gmap strings list fin_maps pretty.
From Stdlib Require Import ZArith Lia.

Local Open Scope Z_scope.
Local Open Scope string_scope.

(** ** JavaScript values *)

(** The double quote character, which the templates of the file print
    around names. *)
Definition dquote : string := String (Ascii.ascii_of_nat 34) EmptyString.

Inductive Prim :=
| PUndefined
| PNull
| PBool (b : bool)
| PNum (n : Z)
| PStr (s : string).

(** The shape of the errors a rejected storage call carries: the handlers
    read [err.code], [err.status] and [err.message], nothing else. *)
Record ErrObj := mkErr {
  code : Prim;
  status : Prim;
  message : Prim
}.

Inductive Value :=
| VPrim (p : Prim)
| VError (e : ErrObj)
| VArray (xs : list string)
| VObject (tag : string).

Global Instance Prim_eq_dec : EqDecision Prim.
Proof. solve_decision. Defined.
Global Instance ErrObj_eq_dec : EqDecision ErrObj.
Proof. solve_decision. Defined.
Global Instance Value_eq_dec : EqDecision Value.
Proof. solve_decision. Defined.

(** ToBoolean. Numbers are integers here, so NaN does not arise. *)
Definition prim_truthy (p : Prim) : bool :=
  match p with
  | PUndefined | PNull => false
  | PBool b => b
  | PNum n => negb (Z.eqb n 0)
  | PStr s => negb (String.eqb s EmptyString)
  end.

Definition truthy (v : Value) : bool :=
  match v with
  | VPrim p => prim_truthy p
  | VError _ | VArray _ | VObject _ => true
  end.

(** [a || b] *)
Definition js_or (a b : Value) : Value := if truthy a then a else b.

(** [a === b] on primitives. *)
Definition strict_eq (a b : Prim) : bool := bool_decide (a = b).

(** ToPropertyKey, for a computed member access [obj[key]]. *)
Definition property_key (p : Prim) : string :=
  match p with
  | PUndefined => "undefined"
  | PNull => "null"
  | PBool true => "true"
  | PBool false => "false"
  | PNum n => pretty n
  | PStr s => s
  end.

(** The members every object literal inherits from [Object.prototype]. *)
Definition object_prototype : list string :=
  [ "constructor"; "__defineGetter__"; "__defineSetter__"; "hasOwnProperty";
    "__lookupGetter__"; "__lookupSetter__"; "isPrototypeOf";
    "propertyIsEnumerable"; "toString"; "valueOf"; "__proto__";
    "toLocaleString" ].

Fixpoint assoc (k : string) (l : list (string * string)) : option string :=
  match l with
  | [] => None
  | (k', v) :: l' => if String.eqb k k' then Some v else assoc k l'
  end.

(** [literal[key]] for an object literal with string values: an own entry,
    else an inherited member, else [undefined]. *)
Definition js_lookup (literal : list (string * string)) (key : Prim) : Value :=
  let k := property_key key in
  match assoc k literal with
  | Some v => VPrim (PStr v)
  | None =>
      if bool_decide (k ∈ object_prototype)
      then VObject ("Object.prototype." +:+ k)
      else VPrim PUndefined
  end.

(** ** The Maintainer table *)

(** Modelled from the spec: [models/maintainer.js] is not part of the
    sources at hand. The record has the attributes section 3 of the
    specification lists; the row's [id], which [decline] reads as
    [invitation.id], is the key of the table. *)
Record Maintainer := mkMaintainer {
  namespace_id : Z;
  package_id : Z;
  active : bool;
  accepted : bool;
  created : Z;
  modified : Z;
  invited_by : Z
}.

Global Instance Maintainer_eq_dec : EqDecision Maintainer.
Proof. solve_decision. Defined.

(** The criteria object [decline] passes to [Maintainer.objects.get]. *)
Record Criteria := mkCriteria {
  q_namespace_id : Z;
  q_package_id : Z;
  q_active : bool;
  q_accepted : bool
}.

Definition matches (q : Criteria) (m : Maintainer) : bool :=
  Z.eqb (namespace_id m) (q_namespace_id q)
  && Z.eqb (package_id m) (q_package_id q)
  && bool_decide (active m = q_active q)
  && bool_decide (accepted m = q_accepted q).

(** The object [.update({ modified: ..., active: false })] receives. *)
Definition set_modified_active (now : Z) (a : bool) (m : Maintainer) : Maintainer :=
  {| namespace_id := namespace_id m;
     package_id := package_id m;
     active := a;
     accepted := accepted m;
     created := created m;
     modified := now;
     invited_by := invited_by m |}.

(** ** Requests, responses, effects *)

(** Route parameters. Each route binds the names of its own pattern; a
    handler reads only the ones it destructures. *)
Record Params := mkParams {
  namespace : string;
  host : string;
  name : string;
  invitee : string;
  member : string
}.

(** [context]: the caller ([context.user.name]) and what the decorators
    attach before a handler runs ([context.member], [context.pkg], of which
    [decline] reads the [id]). *)
Record Context := mkContext {
  user_name : string;
  member_id : option Z;
  pkg_id : option Z
}.

(** The calls the handlers make on [context.storageApi], with the argument
    object of each. *)
Inductive ApiCall :=
| getActiveMaintainers (ns hst nm : string) (page : Z)
| inviteMaintainer (ns hst nm from to : string)
| removeMaintainer (ns hst nm from to : string)
| acceptMaintainerInvite (ns hst nm mbr bearer : string).

(** A settled promise. *)
Inductive Settled :=
| Fulfilled (v : Value)
| Rejected (v : Value).

(** [response.error(message, status)], [response.message(text)] and
    [response.json(body)] of boltzmann, kept as the calls were made. *)
Inductive Response :=
| response_error (msg : Value) (st : Prim)
| response_message (msg : string)
| response_json (objects : Value).

Inductive Event :=
| EvApi (c : ApiCall)
| EvUpdate (id : Z)
| EvLogInfo (line : string)
| EvLogError (v : Value)
| EvCanWrite (caller : string) (p : Params) (granted : bool)
| EvIsMember (caller : string) (ns : string) (granted : bool).

Record World := mkWorld {
  table : gmap Z Maintainer;
  clock : Z;
  trace : list Event
}.

Inductive Exn :=
| ReferenceError (ident : string)
| TypeError (what : string)
| MultipleObjectsReturned.

Inductive Completion (A : Type) :=
| Return (a : A)
| Throw (e : Exn).
Arguments Return {A} a.
Arguments Throw {A} e.

(** ** The monad of an async function body: state and exceptions *)

Definition M (A : Type) : Type := World → Completion A * World.

Definition throw {A} (e : Exn) : M A := λ w, (Throw e, w).

Global Instance M_ret : MRet M := λ A a w, (Return a, w).
Global Instance M_bind : MBind M := λ A B k m w,
  match m w with
  | (Return a, w') => k a w'
  | (Throw e, w') => (Throw e, w')
  end.

Definition ret {A} (a : A) : M A := mret a.

Definition emit (e : Event) : M unit :=
  λ w, (Return tt, mkWorld (table w) (clock w) (trace w ++ [e])).

(** [context.logger.info(line)], [context.logger.error(v)] *)
Definition logger_info (line : string) : M unit := emit (EvLogInfo line).
Definition logger_error (v : Value) : M unit := emit (EvLogError v).

(** [new Date()] *)
Definition new_Date : M Z := λ w, (Return (clock w), w).

(** [obj.field] where [obj] may be undefined. *)
Definition member_of {A} (what : string) (o : option A) : M A :=
  match o with
  | Some a => ret a
  | None => throw (TypeError what)
  end.

(** [v.code], [v.status], [v.message]: reading a property of [null] or
    [undefined] throws; the other values without such a property give
    [undefined]. *)
Definition get_prop (field : ErrObj → Prim) (what : string) (v : Value) : M Prim :=
  match v with
  | VError e => ret (field e)
  | VPrim PUndefined | VPrim PNull => throw (TypeError what)
  | _ => ret PUndefined
  end.

(** Resolution of a free identifier against the bindings in scope. *)
Fixpoint scope_lookup (x : string) (env : list (string * Value)) : option Value :=
  match env with
  | [] => None
  | (y, v) :: env' => if String.eqb x y then Some v else scope_lookup x env'
  end.

Definition resolve (x : string) (env : list (string * Value)) : M Value :=
  match scope_lookup x env with
  | Some v => ret v
  | None => throw (ReferenceError x)
  end.

(** ** The ORM calls of [decline] *)

(** The rows meeting the criteria, by ascending id. *)
Definition select (q : Criteria) (t : gmap Z Maintainer) : list (Z * Maintainer) :=
  map_to_list (filter (λ kv, matches q kv.2 = true) t).

(** [Maintainer.objects.get(q).catch(Maintainer.objects.NotFound, () => null)]:
    [get] resolves to the one matching row, rejects with [NotFound] when
    there is none (which the handler turns into [null]) and with
    [MultipleObjectsReturned] when there are several (which it lets
    through). *)
Definition objects_get_or_null (q : Criteria) : M (option (Z * Maintainer)) :=
  λ w, match select q (table w) with
       | [] => (Return None, w)
       | [row] => (Return (Some row), w)
       | _ => (Throw MultipleObjectsReturned, w)
       end.

(** [Maintainer.objects.filter({ id }).update(f)] *)
Definition objects_filter_id_update (id : Z) (f : Maintainer → Maintainer) : M unit :=
  λ w, (Return tt, mkWorld (alter f id (table w)) (clock w) (trace w ++ [EvUpdate id])).

(** ** The handlers *)

Section Handlers.

(** [context.storageApi]: the storage service answers a call with a settled
    promise and may change the Maintainer rows while doing so. *)
Variable storageApi : ApiCall → gmap Z Maintainer → Settled * gmap Z Maintainer.

(** [await context.storageApi.f(args).then(xs => [null, xs], xs => [xs, null])] *)
Definition await_storage (c : ApiCall) : M (Value * Value) :=
  λ w, let '(settled, t') := storageApi c (table w) in
       let w' := mkWorld t' (clock w) (trace w ++ [EvApi c]) in
       match settled with
       | Fulfilled xs => (Return (VPrim PNull, xs), w')
       | Rejected xs => (Return (xs, VPrim PNull), w')
       end.

(** [`${namespace}@${host}/${name}`] *)
Definition pkg_spec (params : Params) : string :=
  namespace params +:+ "@" +:+ host params +:+ "/" +:+ name params.

(** The bindings of the module: its [require]s, its function declarations
    and what the module wrapper provides. No global of the runtime is named
    [objects] either. *)
Definition module_scope : list (string * Value) :=
  (λ x, (x, VObject x)) <$>
  [ "isNamespaceMember"; "packageExists"; "findInvitee"; "canWrite";
    "Maintainer"; "Namespace"; "Package"; "response"; "fork";
    "maintainers"; "invite"; "remove"; "accept"; "decline";
    "module"; "exports"; "require"; "__filename"; "__dirname" ].

Definition maintainers (context : Context) (params : Params) : M Response :=
  '(err, maintainers) ← await_storage
     (getActiveMaintainers (namespace params) (host params) (name params) 0);
  if truthy err then
    st ← get_prop status "err.status" err;
    if strict_eq st (PNum 404) then
      mret (response_error
              (VPrim (PStr (dquote +:+ pkg_spec params +:+ dquote +:+ " does not exist.")))
              (PNum 404))
    else
      m ← get_prop message "err.message" err;
      logger_error (js_or (VPrim m) err);;
      mret (response_error
              (VPrim (PStr ("Caught error fetching maintainers for " +:+
                            dquote +:+ pkg_spec params +:+ dquote +:+ ".")))
              (PNum 500))
  else
    objects ← resolve "objects"
      ([ ("context", VObject "context");
         ("namespace", VPrim (PStr (namespace params)));
         ("host", VPrim (PStr (host params)));
         ("name", VPrim (PStr (name params)));
         ("err", err);
         ("maintainers", maintainers) ] ++ module_scope);
    mret (response_json objects).

(** The message table of [invite]. *)
Definition invite_messages (invitee : string) : list (string * string) :=
  [ ("invite.invitee_dne", "Unknown namespace: " +:+ dquote +:+ invitee +:+ dquote +:+ ".");
    ("invite.package_dne", "Unknown package: " +:+ dquote +:+ invitee +:+ dquote +:+ ".");
    ("invite.already_accepted",
       "Namespace " +:+ dquote +:+ invitee +:+ dquote +:+ " is already a member.");
    ("invite.already_declined",
       "Namespace " +:+ dquote +:+ invitee +:+ dquote +:+ " has declined this invite.") ].

(** The message table of [remove]. In the source the entry
    ['invite.invitee_not_maintainer'] is not followed by a comma, which
    makes the literal, and the function around it, a syntax error; the
    table is read here with the comma supplied. *)
Definition remove_messages (params : Params) : list (string * string) :=
  let invitee := invitee params in
  [ ("invite.invitee_dne", "Unknown namespace: " +:+ dquote +:+ invitee +:+ dquote +:+ ".");
    ("invite.invitee_not_maintainer",
       invitee +:+ " was not a maintainer of " +:+ pkg_spec params +:+ ".");
    ("invite.package_dne", "Unknown package: " +:+ dquote +:+ invitee +:+ dquote +:+ ".");
    ("invite.already_accepted",
       "Namespace " +:+ dquote +:+ invitee +:+ dquote +:+ " is already a member.");
    ("invite.already_declined",
       "Namespace " +:+ dquote +:+ invitee +:+ dquote +:+ " has declined this invite.") ].

(** [`Caught error inviting "${invitee}" to ${namespace}@${host}/${name}`],
    the fallback of both [invite] and [remove]. *)
Definition caught_error_inviting (params : Params) : string :=
  "Caught error inviting " +:+ dquote +:+ invitee params +:+ dquote +:+
  " to " +:+ pkg_spec params.

Definition invite (context : Context) (params : Params) : M Response :=
  '(err, invite) ← await_storage
     (inviteMaintainer (namespace params) (host params) (name params)
                       (user_name context) (invitee params));
  if truthy err then
    c ← get_prop code "err.code" err;
    let msg := js_lookup (invite_messages (invitee params)) c in
    st ← get_prop code "err.code" err;
    mret (response_error
            (js_or msg (VPrim (PStr (caught_error_inviting params))))
            st)
  else
    logger_info (invitee params +:+ " invited to join the maintainers of " +:+
                 pkg_spec params +:+ " by " +:+ user_name context);;
    mret (response_message
            (invitee params +:+ " invited to join the maintainers of " +:+
             pkg_spec params +:+ ".")).

(** [remove] as its text reads once the comma missing from its message
    table is supplied; as shipped, the function does not parse. *)
Definition remove (context : Context) (params : Params) : M Response :=
  '(err, invite) ← await_storage
     (removeMaintainer (namespace params) (host params) (name params)
                       (user_name context) (invitee params));
  if truthy err then
    c ← get_prop code "err.code" err;
    let msg := js_lookup (remove_messages params) c in
    st ← get_prop code "err.code" err;
    mret (response_error
            (js_or msg (VPrim (PStr (caught_error_inviting params))))
            st)
  else
    logger_info (invitee params +:+ " removed as maintainer of " +:+
                 pkg_spec params +:+ " by " +:+ user_name context);;
    mret (response_message
            (invitee params +:+ " removed as maintainer of " +:+
             pkg_spec params +:+ ".")).

(** [const [err] = ...]: the first component is bound and never read. *)
Definition accept (context : Context) (params : Params) : M Response :=
  '(err, _) ← await_storage
     (acceptMaintainerInvite (namespace params) (host params) (name params)
                             (member params) (user_name context));
  logger_info (user_name context +:+ " accepted the invitation for " +:+
               member params +:+ " to join " +:+ pkg_spec params);;
  mret (response_message
          (member params +:+ " is now a maintainer for " +:+ pkg_spec params)).

Definition decline (context : Context) (params : Params) : M Response :=
  mid ← member_of "context.member" (member_id context);
  pid ← member_of "context.pkg" (pkg_id context);
  invitation ← objects_get_or_null
     {| q_namespace_id := mid; q_package_id := pid;
        q_active := true; q_accepted := false |};
  match invitation with
  | None =>
      mret (response_error (VPrim (PStr "invitation not found")) (PNum 404))
  | Some (id, _) =>
      now ← new_Date;
      objects_filter_id_update id (set_modified_active now false);;
      logger_info (user_name context +:+ " declined the invitation for " +:+
                   member params +:+ " to join " +:+ pkg_spec params);;
      mret (response_message
              ("You have declined the invitation for " +:+ member params +:+
               " to join " +:+ pkg_spec params))
  end.

End Handlers.

(** ** The routes *)

Definition Handler : Type := Context → Params → M Response.

Section Routes.

Variable storageApi : ApiCall → gmap Z Maintainer → Settled * gmap Z Maintainer.

(** The collaborators of section 6 of the specification, each free to read
    the world: [NamespaceLookup], [PackageLookup] and the two authorization
    predicates of section 4.2. *)
Variable NamespaceLookup : World → string → option Z.
Variable PackageLookup : World → string → string → string → option Z.
Variable CanWritePackage : World → string → Params → bool.
Variable IsNamespaceMember : World → string → string → bool.

Definition ask {A} (f : World → A) : M A := λ w, (Return (f w), w).

Definition not_found (kind : string) : Response :=
  response_error (VPrim (PStr kind)) (PNum 404).

Definition unauthorized : Response :=
  response_error (VPrim (PStr "Unauthorized")) (PNum 403).

(** Modelled from the spec: [decorators/find-invitee.js] is not part of the
    sources at hand. The invitee namespace is resolved first; the operation
    fails with [InviteeNotFound] when it does not resolve. *)
Definition findInvitee (next : Handler) : Handler := λ context params,
  found ← ask (λ w, NamespaceLookup w (invitee params));
  match found with
  | None => mret (not_found "InviteeNotFound")
  | Some _ => next context params
  end.

(** Modelled from the spec: [decorators/package-exists.js] is not part of
    the sources at hand. The package is resolved, which fails with
    [PackageNotFound], and attached as [context.pkg]. *)
Definition packageExists (next : Handler) : Handler := λ context params,
  found ← ask (λ w, PackageLookup w (namespace params) (host params) (name params));
  match found with
  | None => mret (not_found "PackageNotFound")
  | Some id =>
      next (mkContext (user_name context) (member_id context) (Some id)) params
  end.

(** Modelled from the spec: [decorators/can-write-package.js] is not part
    of the sources at hand. [CanWritePackage] is evaluated before the
    wrapped handler; a false result short-circuits with an authorization
    failure. *)
Definition canWrite (next : Handler) : Handler := λ context params,
  granted ← ask (λ w, CanWritePackage w (user_name context) params);
  emit (EvCanWrite (user_name context) params granted);;
  if (granted : bool) then next context params else mret unauthorized.

(** Modelled from the spec: [decorators/is-namespace-member.js] is not part
    of the sources at hand. [IsNamespaceMember] is evaluated before the
    wrapped handler; a false result short-circuits with an authorization
    failure, a true one attaches the namespace as [context.member]. *)
Definition isNamespaceMember (next : Handler) : Handler := λ context params,
  granted ← ask (λ w, IsNamespaceMember w (user_name context) (member params));
  emit (EvIsMember (user_name context) (member params) granted);;
  if (granted : bool) then
    ns ← ask (λ w, NamespaceLookup w (member params));
    next (mkContext (user_name context) ns (pkg_id context)) params
  else mret unauthorized.

Inductive Method := GET | POST | DELETE.

Definition packages_prefix : string :=
  "/v1/packages/package/:namespace([^@]+)@:host/:name".

(** [module.exports] *)
Definition module_exports : list (Method * string * Handler) :=
  [ (GET, packages_prefix +:+ "/maintainers", maintainers storageApi);
    (POST, packages_prefix +:+ "/maintainers/:invitee",
       findInvitee (canWrite (invite storageApi)));
    (DELETE, packages_prefix +:+ "/maintainers/:invitee",
       findInvitee (canWrite (remove storageApi)));
    (POST, packages_prefix +:+ "/invitation/:member",
       packageExists (isNamespaceMember (accept storageApi)));
    (DELETE, packages_prefix +:+ "/invitation/:member",
       packageExists (isNamespaceMember decline)) ].

End Routes.

(** ** Sample requests and worlds *)

Definition widget_params : Params :=
  {| namespace := "acme"; host := "github"; name := "widget";
     invitee := "bob"; member := "carol" |}.

(** The caller as it arrives, before any decorator has run. *)
Definition carol_request : Context :=
  {| user_name := "carol"; member_id := None; pkg_id := None |}.

(** The caller once [packageExists] and [isNamespaceMember] have attached
    package 3 and namespace 7. *)
Definition carol_context : Context :=
  {| user_name := "carol"; member_id := Some 7; pkg_id := Some 3 |}.

Definition alice_context : Context :=
  {| user_name := "alice"; member_id := None; pkg_id := None |}.

(** An invitation of namespace 7 to package 3, not yet answered. *)
Definition carol_invitation : Maintainer :=
  {| namespace_id := 7; package_id := 3; active := true; accepted := false;
     created := 100; modified := 100; invited_by := 2 |}.

(** Namespace 2 maintains package 3. *)
Definition alice_maintainership : Maintainer :=
  {| namespace_id := 2; package_id := 3; active := true; accepted := true;
     created := 10; modified := 20; invited_by := 2 |}.

Definition no_invitation_world : World :=
  {| table := {[ 1 := alice_maintainership ]}; clock := 500; trace := [] |}.

Definition invited_world : World :=
  {| table := <[ 5 := carol_invitation ]> {[ 1 := alice_maintainership ]};
     clock := 500; trace := [] |}.

(** Storage services with a fixed answer that leave the rows alone. *)
Definition storage_answers (s : Settled)
  : ApiCall → gmap Z Maintainer → Settled * gmap Z Maintainer :=
  λ _ t, (s, t).


Definition invitation_dne : ErrObj :=
  {| code := PStr "invite.invitation_dne"; status := PNum 404;
     message := PStr "invitation not found" |}.

Definition package_dne : ErrObj :=
  {| code := PStr "package.dne"; status := PNum 404;
     message := PStr "package not found" |}.

Definition connection_refused : ErrObj :=
  {| code := PStr "ECONNREFUSED"; status := PUndefined;
     message := PStr "connect ECONNREFUSED 127.0.0.1:5432" |}.

(** ** Vocabulary of the properties *)

(** A Pending record of namespace [mid] for package [pid]. *)
Definition pending (mid pid : Z) (m : Maintainer) : Prop :=
  namespace_id m = mid ∧ package_id m = pid ∧ active m = true ∧ accepted m = false.

Definition pending_criteria (mid pid : Z) : Criteria :=
  {| q_namespace_id := mid; q_package_id := pid;
     q_active := true; q_accepted := false |}.

Definition declined_line (context : Context) (params : Params) : string :=
  user_name context +:+ " declined the invitation for " +:+
  member params +:+ " to join " +:+ pkg_spec params.

Definition declined_confirmation (params : Params) : string :=
  "You have declined the invitation for " +:+ member params +:+
  " to join " +:+ pkg_spec params.

Definition invitation_not_found : Response :=
  response_error (VPrim (PStr "invitation not found")) (PNum 404).


(** Running [m] only appends to the trace, and only events meeting [P]. *)
Definition adds {A} (P : Event → Prop) (m : M A) : Prop :=
  ∀ w, ∃ evs, trace (m w).2 = (trace w ++ evs)%list ∧ Forall P evs.



Section Gates.

Variable storageApi : ApiCall → gmap Z Maintainer → Settled * gmap Z Maintainer.
Variable NamespaceLookup : World → string → option Z.
Variable PackageLookup : World → string → string → string → option Z.
Variable CanWritePackage : World → string → Params → bool.
Variable IsNamespaceMember : World → string → string → bool.








End Gates.

(** Sample collaborators: three namespaces, one package, [alice] the only
    writer, and everyone a member of the namespace of their own name. *)
Definition sample_namespaces : World → string → option Z := λ _ ns,
  if String.eqb ns "alice" then Some 2
  else if String.eqb ns "carol" then Some 7
  else if String.eqb ns "bob" then Some 9
  else None.

Definition sample_packages : World → string → string → string → option Z :=
  λ _ ns hst nm,
  if String.eqb ns "acme" && String.eqb hst "github" && String.eqb nm "widget"
  then Some 3 else None.

Definition sample_can_write : World → string → Params → bool :=
  λ _ caller _, String.eqb caller "alice".

Definition sample_is_member : World → string → string → bool :=
  λ _ caller ns, String.eqb caller ns.

(** [v.field] for a value that is neither [null] nor [undefined], where
    the read cannot throw. *)
Definition prop_of (field : ErrObj → Prim) (v : Value) : Prim :=
  match v with
  | VError e => field e
  | _ => PUndefined
  end.

(** The first component of the pair [.then(xs => [null, xs], xs => [xs, null])]
    makes of a settled promise: what the handlers call [err]. *)
Definition settled_error (s : Settled) : Value :=
  match s with
  | Fulfilled _ => VPrim PNull
  | Rejected v => v
  end.

(** A request naming an invitee that [sample_namespaces] does not know. *)
Definition stranger_params : Params :=
  {| namespace := "acme"; host := "github"; name := "widget";
     invitee := "mallory"; member := "mallory" |}.

(** A table in which namespace 7 holds two unanswered invitations to
    package 3. *)
Definition twice_invited_world : World :=
  {| table := <[ 6 := carol_invitation ]> (table invited_world);
     clock := 500; trace := [] |}.

(** An error whose code happens to be the name of an inherited member. *)
Definition constructor_error : ErrObj :=
  {| code := PStr "constructor"; status := PNum 500;
     message := PStr "unexpected" |}.

(** * Properties *)

(** ** Rows and queries *)

Lemma matches_pending mid pid m :
  matches (pending_criteria mid pid) m = true ↔ pending mid pid m.
Proof.
  unfold matches, pending; simpl.
  rewrite !andb_true_iff, !Z.eqb_eq, !bool_decide_eq_true. tauto.
Qed.

Lemma select_elem q (t : gmap Z Maintainer) id m :
  (id, m) ∈ select q t ↔ t !! id = Some m ∧ matches q m = true.
Proof.
  unfold select. rewrite elem_of_map_to_list.
  apply (map_lookup_filter_Some (λ kv : Z * Maintainer, matches q kv.2 = true)).
Qed.

Lemma select_nil q (t : gmap Z Maintainer) :
  select q t = [] ↔ ∀ id m, t !! id = Some m → matches q m = false.
Proof.
  split.
  - intros Hnil id m Hin.
    destruct (matches q m) eqn:Hm; [|done].
    assert ((id, m) ∈ select q t) as Hel by (by apply select_elem).
    rewrite Hnil in Hel. by apply elem_of_nil in Hel.
  - intros Hnone. destruct (select q t) as [|[id m] l] eqn:Hsel; [done|].
    assert ((id, m) ∈ select q t) as Hel by (rewrite Hsel; left).
    apply select_elem in Hel as [Hin Hm].
    rewrite (Hnone _ _ Hin) in Hm. done.
Qed.

Lemma select_one q (t : gmap Z Maintainer) id m :
  select q t = [(id, m)] →
  t !! id = Some m ∧ matches q m = true ∧
  ∀ id' m', t !! id' = Some m' → matches q m' = true → id' = id ∧ m' = m.
Proof.
  intros Hsel.
  assert ((id, m) ∈ select q t) as Hel by (rewrite Hsel; left).
  apply select_elem in Hel as [Hin Hm]. repeat split; try done.
  - assert ((id', m') ∈ select q t) as Hel by (by apply select_elem).
    rewrite Hsel in Hel. apply list_elem_of_singleton in Hel. congruence.
  - assert ((id', m') ∈ select q t) as Hel by (by apply select_elem).
    rewrite Hsel in Hel. apply list_elem_of_singleton in Hel. congruence.
Qed.

(** With at most one matching row, [select] has at most one element. *)
Lemma select_unique q (t : gmap Z Maintainer) id m :
  t !! id = Some m → matches q m = true →
  (∀ id' m', t !! id' = Some m' → matches q m' = true → id' = id) →
  select q t = [(id, m)].
Proof.
  intros Hin Hm Huniq.
  assert ((id, m) ∈ select q t) as Hel by (by apply select_elem).
  pose proof (NoDup_map_to_list (filter (λ kv : Z * Maintainer, matches q kv.2 = true) t))
    as Hnd. fold (select q t) in Hnd.
  destruct (select q t) as [|[i1 m1] l] eqn:Hsel; [by apply elem_of_nil in Hel|].
  assert (i1 = id ∧ m1 = m) as [-> ->].
  { assert ((i1, m1) ∈ select q t) as H1 by (rewrite Hsel; left).
    apply select_elem in H1 as [H1 H1m]. pose proof (Huniq _ _ H1 H1m) as ->.
    split; [done|congruence]. }
  destruct l as [|[i2 m2] l]; [done|]. exfalso.
  assert ((i2, m2) ∈ select q t) as H2 by (rewrite Hsel; right; left).
  apply select_elem in H2 as [H2 H2m]. pose proof (Huniq _ _ H2 H2m) as ->.
  assert (m2 = m) as -> by congruence.
  apply NoDup_cons in Hnd as [Hnot _]. apply Hnot. left.
Qed.

(** ** [decline], case by case *)

Lemma decline_cases context params w mid pid :
  member_id context = Some mid → pkg_id context = Some pid →
  decline context params w =
    match select (pending_criteria mid pid) (table w) with
    | [] => (Return invitation_not_found, w)
    | [(id, _)] =>
        (Return (response_message (declined_confirmation params)),
         {| table := alter (set_modified_active (clock w) false) id (table w);
            clock := clock w;
            trace := (trace w ++ [EvUpdate id]) ++
                     [EvLogInfo (declined_line context params)] |})
    | _ => (Throw MultipleObjectsReturned, w)
    end.
Proof.
  intros Hm Hp. unfold decline. rewrite Hm, Hp.
  unfold mbind, M_bind, member_of, ret, mret, M_ret, objects_get_or_null. simpl.
  fold (pending_criteria mid pid).
  destruct (select (pending_criteria mid pid) (table w)) as [|[id m] [|? ?]]; done.
Qed.

Lemma decline_no_member context params w :
  member_id context = None →
  decline context params w = (Throw (TypeError "context.member"), w).
Proof. intros Hm. unfold decline. by rewrite Hm. Qed.

Lemma decline_no_pkg context params w mid :
  member_id context = Some mid → pkg_id context = None →
  decline context params w = (Throw (TypeError "context.pkg"), w).
Proof. intros Hm Hp. unfold decline. by rewrite Hm, Hp. Qed.

(** What a successful [decline] looks like, read back from its result. *)
Lemma decline_success_inv context params w w' text :
  decline context params w = (Return (response_message text), w') →
  ∃ mid pid id m,
    member_id context = Some mid ∧ pkg_id context = Some pid ∧
    select (pending_criteria mid pid) (table w) = [(id, m)] ∧
    text = declined_confirmation params ∧
    w' = {| table := alter (set_modified_active (clock w) false) id (table w);
            clock := clock w;
            trace := trace w ++ [EvUpdate id; EvLogInfo (declined_line context params)] |}.
Proof.
  intros Hrun.
  destruct (member_id context) as [mid|] eqn:Hm;
    [|by rewrite decline_no_member in Hrun].
  destruct (pkg_id context) as [pid|] eqn:Hp;
    [|by rewrite (decline_no_pkg _ _ _ mid) in Hrun].
  rewrite (decline_cases _ _ _ mid pid) in Hrun by done.
  destruct (select (pending_criteria mid pid) (table w)) as [|[id m] [|? ?]] eqn:Hsel;
    try discriminate.
  injection Hrun as <- <-. exists mid, pid, id, m.
  by rewrite <- app_assoc.
Qed.

(** C3: whoever the caller is, when the table holds no row with
    [active = true] and [accepted = false] for the namespace attached to the
    request and the package, [decline] answers with the error
    ["invitation not found"] and status 404, and leaves the world as it
    was. *)
Theorem decline_invitation_not_found (caller : string) (mid pid : Z) params w :
  (∀ id m, table w !! id = Some m → ¬ pending mid pid m) →
  decline {| user_name := caller; member_id := Some mid; pkg_id := Some pid |}
          params w
  = (Return (response_error (VPrim (PStr "invitation not found")) (PNum 404)), w).
Proof.
  intros Hnone. rewrite (decline_cases _ _ _ mid pid) by done.
  assert (select (pending_criteria mid pid) (table w) = []) as ->; [|done].
  apply select_nil. intros id m Hin.
  destruct (matches (pending_criteria mid pid) m) eqn:Hmatch; [|done].
  apply matches_pending in Hmatch. by destruct (Hnone id m Hin).
Qed.

(** C9: when [decline] answers ["invitation not found"], the world after
    the call is the world before it: no row of the table has changed and
    no update was issued. *)
Theorem decline_not_found_no_mutation context params w w' :
  decline context params w = (Return invitation_not_found, w') →
  w' = w ∧ table w' = table w ∧ ∀ id, EvUpdate id ∉ drop (length (trace w)) (trace w').
Proof.
  intros Hrun.
  assert (w' = w) as ->.
  { destruct (member_id context) as [mid|] eqn:Hm;
      [|by rewrite decline_no_member in Hrun].
    destruct (pkg_id context) as [pid|] eqn:Hp;
      [|by rewrite (decline_no_pkg _ _ _ mid) in Hrun].
    rewrite (decline_cases _ _ _ mid pid) in Hrun by done.
    destruct (select (pending_criteria mid pid) (table w)) as [|[id m] [|? ?]];
      try discriminate.
    by injection Hrun. }
  repeat split. intros id. rewrite drop_all. apply not_elem_of_nil.
Qed.

(** C4: when a Pending record [m] with id [id] exists for the namespace and
    package attached to the request and [decline] succeeds, that record has
    [modified] set to the current time and [active] set to false, one
    informational line was logged after the update, and the answer is the
    confirmation message. *)
Theorem decline_success_effects context params w w' text mid pid id m :
  member_id context = Some mid → pkg_id context = Some pid →
  table w !! id = Some m → pending mid pid m →
  decline context params w = (Return (response_message text), w') →
  (∃ m', table w' !! id = Some m' ∧ modified m' = clock w ∧ active m' = false) ∧
  trace w' = (trace w ++ [EvUpdate id; EvLogInfo (declined_line context params)])%list ∧
  text = declined_confirmation params.
Proof.
  intros Hm Hp Hin Hpend Hrun.
  apply decline_success_inv in Hrun
    as (mid' & pid' & id' & m' & Hm' & Hp' & Hsel & -> & ->).
  assert (mid' = mid) as -> by congruence.
  assert (pid' = pid) as -> by congruence.
  apply select_one in Hsel as (_ & _ & Huniq).
  destruct (Huniq id m Hin) as [<- <-]; [by apply matches_pending|].
  simpl. repeat split; [|done..].
  exists (set_modified_active (clock w) false m).
  by rewrite lookup_alter_eq, Hin.
Qed.

(** C10: a successful [decline] rewrites exactly one row, the matched
    Pending one, and there only [modified] and [active]: [namespace_id],
    [package_id], [accepted] (still false, so the row is Declined),
    [created] and [invited_by] keep their values, every other row is
    untouched, and so is the clock. *)
Theorem decline_success_frame context params w w' text :
  decline context params w = (Return (response_message text), w') →
  ∃ mid pid id m m',
    member_id context = Some mid ∧ pkg_id context = Some pid ∧
    table w !! id = Some m ∧ pending mid pid m ∧
    table w' !! id = Some m' ∧
    m' = set_modified_active (clock w) false m ∧
    namespace_id m' = namespace_id m ∧ package_id m' = package_id m ∧
    accepted m' = accepted m ∧ created m' = created m ∧
    invited_by m' = invited_by m ∧
    (active m' = false ∧ accepted m' = false) ∧
    (∀ id', id' ≠ id → table w' !! id' = table w !! id') ∧
    clock w' = clock w.
Proof.
  intros Hrun.
  apply decline_success_inv in Hrun as (mid & pid & id & m & Hm & Hp & Hsel & -> & ->).
  apply select_one in Hsel as (Hin & Hmatch & _).
  apply matches_pending in Hmatch.
  exists mid, pid, id, m, (set_modified_active (clock w) false m). simpl.
  split_and!; try done.
  - by rewrite lookup_alter_eq, Hin.
  - by destruct Hmatch as (_ & _ & _ & ?).
  - intros id' Hne. by rewrite lookup_alter_ne.
Qed.

(** [decline] does succeed when the Pending record is the only one for the
    pair, which the invariant of section 3 of the specification asks for. *)
Lemma decline_succeeds context params w mid pid id m :
  member_id context = Some mid → pkg_id context = Some pid →
  table w !! id = Some m → pending mid pid m →
  (∀ id' m', table w !! id' = Some m' → pending mid pid m' → id' = id) →
  (decline context params w).1 = Return (response_message (declined_confirmation params)).
Proof.
  intros Hm Hp Hin Hpend Huniq. rewrite (decline_cases _ _ _ mid pid) by done.
  rewrite (select_unique _ _ id m); [done..| |].
  - by apply matches_pending.
  - intros id' m' Hin' Hmatch. apply (Huniq id' m' Hin'). by apply matches_pending.
Qed.

Lemma decline_invitation_not_found_witness :
  decline carol_context widget_params no_invitation_world
  = (Return (response_error (VPrim (PStr "invitation not found")) (PNum 404)),
     no_invitation_world).
Proof.
  apply (decline_invitation_not_found "carol" 7 3 widget_params no_invitation_world).
  intros id m Hin (Hns & _). simpl in Hin.
  apply lookup_singleton_Some in Hin as [_ <-]. discriminate Hns.
Defined.

Lemma decline_not_found_no_mutation_witness :
  table (decline carol_context widget_params no_invitation_world).2
  = table no_invitation_world.
Proof.
  apply (decline_not_found_no_mutation carol_context widget_params
           no_invitation_world
           (decline carol_context widget_params no_invitation_world).2).
  vm_compute. reflexivity.
Defined.

Lemma decline_success_effects_witness :
  (∃ m', table (decline carol_context widget_params invited_world).2 !! 5 = Some m'
         ∧ modified m' = 500 ∧ active m' = false) ∧
  trace (decline carol_context widget_params invited_world).2
  = [EvUpdate 5;
     EvLogInfo "carol declined the invitation for carol to join acme@github/widget"] ∧
  "You have declined the invitation for carol to join acme@github/widget"
  = declined_confirmation widget_params.
Proof.
  apply (decline_success_effects carol_context widget_params invited_world
           (decline carol_context widget_params invited_world).2
           "You have declined the invitation for carol to join acme@github/widget"
           7 3 5 carol_invitation).
  - reflexivity.
  - reflexivity.
  - vm_compute. reflexivity.
  - unfold pending. simpl. repeat split.
  - vm_compute. reflexivity.
Defined.

Lemma decline_success_frame_witness :
  ∃ mid pid id m m',
    member_id carol_context = Some mid ∧ pkg_id carol_context = Some pid ∧
    table invited_world !! id = Some m ∧ pending mid pid m ∧
    table (decline carol_context widget_params invited_world).2 !! id = Some m' ∧
    m' = set_modified_active (clock invited_world) false m ∧
    namespace_id m' = namespace_id m ∧ package_id m' = package_id m ∧
    accepted m' = accepted m ∧ created m' = created m ∧
    invited_by m' = invited_by m ∧
    (active m' = false ∧ accepted m' = false) ∧
    (∀ id', id' ≠ id →
       table (decline carol_context widget_params invited_world).2 !! id'
       = table invited_world !! id') ∧
    clock (decline carol_context widget_params invited_world).2 = clock invited_world.
Proof.
  apply (decline_success_frame carol_context widget_params invited_world
           (decline carol_context widget_params invited_world).2
           "You have declined the invitation for carol to join acme@github/widget").
  vm_compute. reflexivity.
Defined.

(** ** The handlers that go through the storage service *)

Section StorageHandlers.

Variable storageApi : ApiCall → gmap Z Maintainer → Settled * gmap Z Maintainer.
Variables (context : Context) (params : Params) (w : World).

Lemma await_storage_rejected c v t' :
  storageApi c (table w) = (Rejected v, t') →
  await_storage storageApi c w
  = (Return (v, VPrim PNull),
     {| table := t'; clock := clock w; trace := trace w ++ [EvApi c] |}).
Proof. intros Hans. unfold await_storage. by rewrite Hans. Qed.

Lemma await_storage_fulfilled c v t' :
  storageApi c (table w) = (Fulfilled v, t') →
  await_storage storageApi c w
  = (Return (VPrim PNull, v),
     {| table := t'; clock := clock w; trace := trace w ++ [EvApi c] |}).
Proof. intros Hans. unfold await_storage. by rewrite Hans. Qed.

(** C7: when the storage service rejects the listing with an error of
    status 404, which is how it reports a package that does not resolve,
    [maintainers] answers with a 404 error whose message names the package
    ([pkg_spec] is [namespace@host/name]); nothing is logged. *)
Theorem maintainers_package_not_found e t' :
  let call := getActiveMaintainers (namespace params) (host params) (name params) 0 in
  storageApi call (table w) = (Rejected (VError e), t') →
  status e = PNum 404 →
  maintainers storageApi context params w
  = (Return (response_error
               (VPrim (PStr (dquote +:+ pkg_spec params +:+ dquote +:+ " does not exist.")))
               (PNum 404)),
     {| table := t'; clock := clock w; trace := trace w ++ [EvApi call] |}).
Proof.
  intros call Hans Hst. unfold maintainers, mbind, M_bind.
  fold call. rewrite (await_storage_rejected _ _ _ Hans). simpl.
  rewrite Hst. unfold strict_eq. by rewrite bool_decide_eq_true_2.
Qed.

(** Any other error of the listing is logged ([err.message], or the error
    itself when it has none) before the generic 500 answer. *)
Lemma maintainers_unexpected_error_logged e t' :
  let call := getActiveMaintainers (namespace params) (host params) (name params) 0 in
  storageApi call (table w) = (Rejected (VError e), t') →
  status e ≠ PNum 404 →
  maintainers storageApi context params w
  = (Return (response_error
               (VPrim (PStr ("Caught error fetching maintainers for " +:+
                             dquote +:+ pkg_spec params +:+ dquote +:+ ".")))
               (PNum 500)),
     {| table := t'; clock := clock w;
        trace := (trace w ++ [EvApi call]) ++
                 [EvLogError (js_or (VPrim (message e)) (VError e))] |}).
Proof.
  intros call Hans Hst. unfold maintainers, mbind, M_bind.
  fold call. rewrite (await_storage_rejected _ _ _ Hans). simpl.
  unfold strict_eq. by rewrite bool_decide_eq_false_2.
Qed.

(** C2: when the storage service fulfils the listing with [xs], the handler
    does not return [xs]: it reaches [response.json({ objects })], where
    [objects] is unbound, and throws a ReferenceError. *)
Theorem maintainers_fulfilled_throws xs t' :
  let call := getActiveMaintainers (namespace params) (host params) (name params) 0 in
  storageApi call (table w) = (Fulfilled xs, t') →
  maintainers storageApi context params w
  = (Throw (ReferenceError "objects"),
     {| table := t'; clock := clock w; trace := trace w ++ [EvApi call] |}).
Proof.
  intros call Hans. unfold maintainers, mbind, M_bind.
  fold call. by rewrite (await_storage_fulfilled _ _ _ Hans).
Qed.

(** C1: when the storage service rejects the acceptance and leaves every
    row as it was, [accept] still logs the acceptance and returns the
    confirmation: the rejection is bound to [err] and never looked at. *)
Theorem accept_ignores_rejection err :
  let call := acceptMaintainerInvite (namespace params) (host params) (name params)
                                     (member params) (user_name context) in
  storageApi call (table w) = (Rejected err, table w) →
  accept storageApi context params w
  = (Return (response_message
               (member params +:+ " is now a maintainer for " +:+ pkg_spec params)),
     {| table := table w; clock := clock w;
        trace := (trace w ++ [EvApi call]) ++
                 [EvLogInfo (user_name context +:+ " accepted the invitation for " +:+
                             member params +:+ " to join " +:+ pkg_spec params)] |}).
Proof.
  intros call Hans. unfold accept, mbind, M_bind.
  fold call. by rewrite (await_storage_rejected _ _ _ Hans).
Qed.

(** Whatever the storage service answers, [accept] returns the
    confirmation. *)
Lemma accept_always_confirms :
  (accept storageApi context params w).1
  = Return (response_message
              (member params +:+ " is now a maintainer for " +:+ pkg_spec params)).
Proof.
  unfold accept, mbind, M_bind, await_storage.
  by destruct (storageApi _ (table w)) as [[v|v] t'].
Qed.


(** C6: when the storage service rejects an invitation with an error whose
    code the message table does not know, [invite] returns the generic
    message, but the only effect it leaves in the trace is the storage
    call: the error is not logged. *)
Theorem invite_unmapped_error_not_logged e t' :
  let call := inviteMaintainer (namespace params) (host params) (name params)
                               (user_name context) (invitee params) in
  storageApi call (table w) = (Rejected (VError e), t') →
  js_lookup (invite_messages (invitee params)) (code e) = VPrim PUndefined →
  invite storageApi context params w
  = (Return (response_error (VPrim (PStr (caught_error_inviting params))) (code e)),
     {| table := t'; clock := clock w; trace := trace w ++ [EvApi call] |}).
Proof.
  intros call Hans Hmsg. unfold invite, mbind, M_bind.
  fold call. rewrite (await_storage_rejected _ _ _ Hans). simpl.
  by rewrite Hmsg.
Qed.

(** [remove] has the same shape. *)
Lemma remove_unmapped_error_not_logged e t' :
  let call := removeMaintainer (namespace params) (host params) (name params)
                               (user_name context) (invitee params) in
  storageApi call (table w) = (Rejected (VError e), t') →
  js_lookup (remove_messages params) (code e) = VPrim PUndefined →
  remove storageApi context params w
  = (Return (response_error (VPrim (PStr (caught_error_inviting params))) (code e)),
     {| table := t'; clock := clock w; trace := trace w ++ [EvApi call] |}).
Proof.
  intros call Hans Hmsg. unfold remove, mbind, M_bind.
  fold call. rewrite (await_storage_rejected _ _ _ Hans). simpl.
  by rewrite Hmsg.
Qed.

End StorageHandlers.

Lemma maintainers_package_not_found_witness :
  maintainers (storage_answers (Rejected (VError package_dne)))
              alice_context widget_params no_invitation_world
  = (Return (response_error
               (VPrim (PStr (dquote +:+ "acme@github/widget" +:+ dquote +:+
                             " does not exist.")))
               (PNum 404)),
     {| table := table no_invitation_world; clock := 500;
        trace := [EvApi (getActiveMaintainers "acme" "github" "widget" 0)] |}).
Proof.
  apply (maintainers_package_not_found
           (storage_answers (Rejected (VError package_dne)))
           alice_context widget_params no_invitation_world
           package_dne (table no_invitation_world)).
  - reflexivity.
  - reflexivity.
Defined.

Lemma maintainers_fulfilled_throws_witness :
  maintainers (storage_answers (Fulfilled (VArray ["bob"])))
              alice_context widget_params no_invitation_world
  = (Throw (ReferenceError "objects"),
     {| table := table no_invitation_world; clock := 500;
        trace := [EvApi (getActiveMaintainers "acme" "github" "widget" 0)] |}).
Proof.
  apply (maintainers_fulfilled_throws
           (storage_answers (Fulfilled (VArray ["bob"])))
           alice_context widget_params no_invitation_world
           (VArray ["bob"]) (table no_invitation_world)).
  reflexivity.
Defined.

Lemma accept_ignores_rejection_witness :
  (∀ id m, table no_invitation_world !! id = Some m → ¬ pending 7 3 m) ∧
  accept (storage_answers (Rejected (VError invitation_dne)))
         carol_context widget_params no_invitation_world
  = (Return (response_message "carol is now a maintainer for acme@github/widget"),
     {| table := table no_invitation_world; clock := 500;
        trace := [EvApi (acceptMaintainerInvite "acme" "github" "widget" "carol" "carol");
                  EvLogInfo "carol accepted the invitation for carol to join acme@github/widget"] |}).
Proof.
  split.
  - intros id m Hin (Hns & _). simpl in Hin.
    apply lookup_singleton_Some in Hin as [_ <-]. discriminate Hns.
  - apply (accept_ignores_rejection
             (storage_answers (Rejected (VError invitation_dne)))
             carol_context widget_params no_invitation_world
             (VError invitation_dne)).
    reflexivity.
Defined.


Lemma invite_unmapped_error_not_logged_witness :
  invite (storage_answers (Rejected (VError connection_refused)))
         alice_context widget_params no_invitation_world
  = (Return (response_error
               (VPrim (PStr ("Caught error inviting " +:+ dquote +:+ "bob" +:+ dquote +:+
                             " to acme@github/widget")))
               (PStr "ECONNREFUSED")),
     {| table := table no_invitation_world; clock := 500;
        trace := [EvApi (inviteMaintainer "acme" "github" "widget" "alice" "bob")] |}).
Proof.
  apply (invite_unmapped_error_not_logged
           (storage_answers (Rejected (VError connection_refused)))
           alice_context widget_params no_invitation_world
           connection_refused (table no_invitation_world)).
  - reflexivity.
  - vm_compute. reflexivity.
Defined.

(** ** Authorization before transition *)

Section Gating.

Variable storageApi : ApiCall → gmap Z Maintainer → Settled * gmap Z Maintainer.
Variable NamespaceLookup : World → string → option Z.
Variable PackageLookup : World → string → string → string → option Z.
Variable CanWritePackage : World → string → Params → bool.
Variable IsNamespaceMember : World → string → string → bool.




End Gating.



(** The same request, run: the answer is the 404 and no check is recorded. *)
Example invite_stranger_refused_as_not_found :
  findInvitee sample_namespaces
    (canWrite sample_can_write (invite (storage_answers (Fulfilled (VPrim PNull)))))
    carol_request stranger_params no_invitation_world
  = (Return (response_error (VPrim (PStr "InviteeNotFound")) (PNum 404)),
     no_invitation_world).
Proof. vm_compute. reflexivity. Qed.

(** [carol] may not write to the package: her invitation of [bob] stops at
    the check, and the storage service is never called. *)
Example invite_refused :
  findInvitee sample_namespaces
    (canWrite sample_can_write (invite (storage_answers (Fulfilled (VPrim PNull)))))
    carol_request widget_params no_invitation_world
  = (Return (response_error (VPrim (PStr "Unauthorized")) (PNum 403)),
     {| table := table no_invitation_world; clock := 500;
        trace := [EvCanWrite "carol" widget_params false] |}).
Proof. vm_compute. reflexivity. Qed.

(** [alice] may: the check is recorded first, then the storage call. *)
Example invite_granted :
  trace (findInvitee sample_namespaces
           (canWrite sample_can_write
              (invite (storage_answers (Fulfilled (VPrim PNull)))))
           alice_context widget_params no_invitation_world).2
  = [EvCanWrite "alice" widget_params true;
     EvApi (inviteMaintainer "acme" "github" "widget" "alice" "bob");
     EvLogInfo "bob invited to join the maintainers of acme@github/widget by alice"].
Proof. vm_compute. reflexivity. Qed.

(** [carol] declines her own invitation through the route. *)
Example decline_route :
  (packageExists sample_packages
     (isNamespaceMember sample_namespaces sample_is_member decline)
     carol_request widget_params invited_world).1
  = Return (response_message
              "You have declined the invitation for carol to join acme@github/widget").
Proof. vm_compute. reflexivity. Qed.

(** * Further properties of the handlers *)

(** ** [decline] in every outcome *)

(** Either [decline] leaves the table alone, or it has found the one
    Pending row of the pair and rewritten it. *)
Lemma decline_table context params w :
  table (decline context params w).2 = table w ∨
  ∃ mid pid id m,
    member_id context = Some mid ∧ pkg_id context = Some pid ∧
    select (pending_criteria mid pid) (table w) = [(id, m)] ∧
    table (decline context params w).2
    = alter (set_modified_active (clock w) false) id (table w).
Proof.
  destruct (member_id context) as [mid|] eqn:Hm;
    [|left; by rewrite decline_no_member].
  destruct (pkg_id context) as [pid|] eqn:Hp;
    [|left; by rewrite (decline_no_pkg _ _ _ mid)].
  rewrite (decline_cases _ _ _ mid pid) by done.
  destruct (select (pending_criteria mid pid) (table w)) as [|[id m] [|? ?]] eqn:Hsel;
    [by left| |by left].
  right. by exists mid, pid, id, m.
Qed.

(** X9: [decline] works on the Maintainer table directly: in no outcome
    does a run send a request to the storage service. *)
Theorem decline_never_calls_storage context params :
  adds (λ e, ∀ c, e ≠ EvApi c) (decline context params).
Proof.
  intros w.
  destruct (member_id context) as [mid|] eqn:Hm.
  2: { exists []. rewrite decline_no_member by done.
       split; [by rewrite app_nil_r|constructor]. }
  destruct (pkg_id context) as [pid|] eqn:Hp.
  2: { exists []. rewrite (decline_no_pkg _ _ _ mid) by done.
       split; [by rewrite app_nil_r|constructor]. }
  rewrite (decline_cases _ _ _ mid pid) by done.
  destruct (select (pending_criteria mid pid) (table w)) as [|[id m] [|? ?]].
  - exists []. split; [by rewrite app_nil_r|constructor].
  - exists [EvUpdate id; EvLogInfo (declined_line context params)].
    split; [by rewrite <- app_assoc|].
    repeat constructor; intros c; discriminate.
  - exists []. split; [by rewrite app_nil_r|constructor].
Qed.

(** X10: when two different rows are Pending for the namespace and package
    of the request, [Maintainer.objects.get] rejects with
    [MultipleObjectsReturned], which [decline] does not catch: the call
    throws and the world is as it was. *)
Theorem decline_two_pending_throws context params w mid pid id1 m1 id2 m2 :
  member_id context = Some mid → pkg_id context = Some pid →
  id1 ≠ id2 →
  table w !! id1 = Some m1 → pending mid pid m1 →
  table w !! id2 = Some m2 → pending mid pid m2 →
  decline context params w = (Throw MultipleObjectsReturned, w).
Proof.
  intros Hm Hp Hne Hin1 Hp1 Hin2 Hp2.
  rewrite (decline_cases _ _ _ mid pid) by done.
  assert ((id1, m1) ∈ select (pending_criteria mid pid) (table w)) as H1.
  { apply select_elem. split; [done|by apply matches_pending]. }
  assert ((id2, m2) ∈ select (pending_criteria mid pid) (table w)) as H2.
  { apply select_elem. split; [done|by apply matches_pending]. }
  destruct (select (pending_criteria mid pid) (table w)) as [|[id m] [|? ?]];
    [by apply elem_of_nil in H1| |done].
  apply list_elem_of_singleton in H1, H2. congruence.
Qed.

(** X11: a successful [decline] cannot be repeated: the same request
    against the world it left finds no invitation and changes nothing,
    whatever route parameters it carries. *)
Theorem decline_twice_not_found context params params' w w' text :
  decline context params w = (Return (response_message text), w') →
  decline context params' w' = (Return invitation_not_found, w').
Proof.
  intros Hrun.
  apply decline_success_inv in Hrun as (mid & pid & id & m & Hm & Hp & Hsel & _ & ->).
  rewrite (decline_cases _ _ _ mid pid) by done. simpl.
  apply select_one in Hsel as (Hin & _ & Huniq).
  assert (select (pending_criteria mid pid)
            (alter (set_modified_active (clock w) false) id (table w)) = []) as ->;
    [|done].
  apply select_nil. intros id' m' Hin'.
  destruct (decide (id' = id)) as [->|Hne].
  - rewrite lookup_alter_eq, Hin in Hin'. injection Hin' as <-.
    unfold matches. simpl. by rewrite !andb_false_r.
  - rewrite lookup_alter_ne in Hin' by done.
    destruct (matches (pending_criteria mid pid) m') eqn:Hmatch; [|done].
    by destruct (Huniq id' m' Hin' Hmatch).
Qed.

(** X12: [decline] neither creates nor deletes a row: in every outcome the
    table has the ids it had. *)
Theorem decline_keeps_ids context params w :
  dom (table (decline context params w).2) = dom (table w).
Proof.
  destruct (decline_table context params w)
    as [->|(mid & pid & id & m & _ & _ & _ & ->)]; [done|].
  apply dom_alter_L.
Qed.

(** X13: in every outcome, [decline] leaves untouched each row that is not
    a Pending record of the request's namespace and package: accepted
    maintainers, declined or removed records, and the records of other
    namespaces and packages. *)
Theorem decline_other_rows_untouched context params w id m :
  table w !! id = Some m →
  (∀ mid pid, member_id context = Some mid → pkg_id context = Some pid →
              ¬ pending mid pid m) →
  table (decline context params w).2 !! id = Some m.
Proof.
  intros Hin Hnot.
  destruct (decline_table context params w)
    as [->|(mid & pid & id0 & m0 & Hm & Hp & Hsel & ->)]; [done|].
  apply select_one in Hsel as (Hin0 & Hmatch & _).
  destruct (decide (id = id0)) as [->|Hne]; [|by rewrite lookup_alter_ne].
  assert (m0 = m) as -> by congruence.
  apply matches_pending in Hmatch. by destruct (Hnot mid pid Hm Hp).
Qed.

(** X14: [decline] never activates a record: a row that is active after
    the call, in whatever outcome, was that very row before it. *)
Theorem decline_never_activates context params w id m' :
  table (decline context params w).2 !! id = Some m' →
  active m' = true →
  table w !! id = Some m'.
Proof.
  intros Hafter Hact.
  destruct (decline_table context params w)
    as [Heq|(mid & pid & id0 & m0 & _ & _ & _ & Heq)]; rewrite Heq in Hafter;
    [done|].
  destruct (decide (id = id0)) as [->|Hne]; [|by rewrite lookup_alter_ne in Hafter].
  rewrite lookup_alter_eq in Hafter.
  destruct (table w !! id0) as [m|]; [|done].
  injection Hafter as <-. discriminate Hact.
Qed.

(** ** The storage handlers in every outcome *)

Lemma get_prop_truthy field what v w :
  truthy v = true → get_prop field what v w = (Return (prop_of field v), w).
Proof. by destruct v as [[]| | |]. Qed.

Lemma js_lookup_inherited literal k :
  assoc k literal = None → k ∈ object_prototype →
  js_lookup literal (PStr k) = VObject ("Object.prototype." +:+ k).
Proof.
  intros Hown Hin. unfold js_lookup. simpl. rewrite Hown.
  by rewrite bool_decide_eq_true_2.
Qed.

Section StorageOutcomes.

Variable storageApi : ApiCall → gmap Z Maintainer → Settled * gmap Z Maintainer.
Variables (context : Context) (params : Params) (w : World).

Local Abbreviation invite_call :=
  (inviteMaintainer (namespace params) (host params) (name params)
                    (user_name context) (invitee params)).
Local Abbreviation list_call :=
  (getActiveMaintainers (namespace params) (host params) (name params) 0).

(** The world once the storage service has answered [c]. *)
Local Abbreviation answered c :=
  {| table := (storageApi c (table w)).2; clock := clock w;
     trace := trace w ++ [EvApi c] |}.

Lemma await_storage_pair c :
  await_storage storageApi c w
  = (Return (settled_error (storageApi c (table w)).1,
             match (storageApi c (table w)).1 with
             | Fulfilled xs => xs
             | Rejected _ => VPrim PNull
             end),
     answered c).
Proof.
  unfold await_storage.
  by destruct (storageApi c (table w)) as [[v|v] t'].
Qed.

(** [invite], with the monad run. *)
Lemma invite_run :
  invite storageApi context params w
  = let err := settled_error (storageApi invite_call (table w)).1 in
    if truthy err then
      (Return (response_error
                 (js_or (js_lookup (invite_messages (invitee params)) (prop_of code err))
                        (VPrim (PStr (caught_error_inviting params))))
                 (prop_of code err)),
       answered invite_call)
    else
      (Return (response_message
                 (invitee params +:+ " invited to join the maintainers of " +:+
                  pkg_spec params +:+ ".")),
       {| table := (storageApi invite_call (table w)).2; clock := clock w;
          trace := (trace w ++ [EvApi invite_call]) ++
                   [EvLogInfo (invitee params +:+ " invited to join the maintainers of " +:+
                               pkg_spec params +:+ " by " +:+ user_name context)] |}).
Proof.
  unfold invite, mbind, M_bind.
  rewrite await_storage_pair. simpl.
  destruct (truthy (settled_error _)) eqn:Herr; [|done].
  by rewrite !get_prop_truthy.
Qed.

(** [maintainers], with the monad run. *)
Lemma maintainers_run :
  maintainers storageApi context params w
  = let err := settled_error (storageApi list_call (table w)).1 in
    if truthy err then
      if strict_eq (prop_of status err) (PNum 404) then
        (Return (response_error
                   (VPrim (PStr (dquote +:+ pkg_spec params +:+ dquote +:+
                                 " does not exist.")))
                   (PNum 404)),
         answered list_call)
      else
        (Return (response_error
                   (VPrim (PStr ("Caught error fetching maintainers for " +:+
                                 dquote +:+ pkg_spec params +:+ dquote +:+ ".")))
                   (PNum 500)),
         {| table := (storageApi list_call (table w)).2; clock := clock w;
            trace := (trace w ++ [EvApi list_call]) ++
                     [EvLogError (js_or (VPrim (prop_of message err)) err)] |})
    else (Throw (ReferenceError "objects"), answered list_call).
Proof.
  unfold maintainers, mbind, M_bind.
  rewrite await_storage_pair. simpl.
  destruct (truthy (settled_error _)) eqn:Herr; [|done].
  rewrite get_prop_truthy by done.
  destruct (strict_eq _ _); [done|].
  by rewrite get_prop_truthy.
Qed.

(** X1: [invite] tells failure from success by the truthiness of the
    rejection: when the storage call is fulfilled, or rejected with a falsy
    reason ([undefined], [null], [false], [0], the empty string), it logs
    the invitation with the inviter's name and returns the message that the
    invitee was invited. *)
Theorem invite_succeeds_without_truthy_error s t' :
  storageApi (inviteMaintainer (namespace params) (host params) (name params)
                               (user_name context) (invitee params)) (table w)
  = (s, t') →
  truthy (settled_error s) = false →
  invite storageApi context params w
  = (Return (response_message
               (invitee params +:+ " invited to join the maintainers of " +:+
                pkg_spec params +:+ ".")),
     {| table := t'; clock := clock w;
        trace := trace w ++
          [EvApi (inviteMaintainer (namespace params) (host params) (name params)
                                   (user_name context) (invitee params));
           EvLogInfo (invitee params +:+ " invited to join the maintainers of " +:+
                      pkg_spec params +:+ " by " +:+ user_name context)] |}).
Proof.
  intros Hans Herr. rewrite invite_run. rewrite Hans. simpl.
  rewrite Herr. by rewrite <- app_assoc.
Qed.

(** X3: whatever the storage service answers, [invite] returns a response
    (reading [err.code] cannot throw, since it happens under [if (err)]);
    it sends exactly one request, carrying the caller as [from] and the
    invitee as [to]; the table is left as the service left it; and an info
    line is logged exactly when the response is the success message, an
    error never. *)
Theorem invite_always_responds :
  ∃ r rest,
    invite storageApi context params w
    = (Return r,
       {| table := (storageApi invite_call (table w)).2; clock := clock w;
          trace := trace w ++ EvApi invite_call :: rest |}) ∧
    ((rest = [] ∧ ∃ msg st, r = response_error msg st) ∨
     (∃ line text, rest = [EvLogInfo line] ∧ r = response_message text)).
Proof.
  rewrite invite_run. simpl. destruct (truthy _).
  - eexists _, []. split; [done|]. left. eauto.
  - eexists _, [_]. split; [by rewrite <- app_assoc|]. right. eauto.
Qed.

(** X15: when the storage service rejects with a truthy value that is not
    an error object (a string, a number, [true]), [err.code] is
    [undefined]: [invite] gives the fallback message and hands [undefined]
    to [response.error] as the status. *)
Theorem invite_primitive_rejection p t' :
  storageApi invite_call (table w) = (Rejected (VPrim p), t') →
  prim_truthy p = true →
  (invite storageApi context params w).1
  = Return (response_error (VPrim (PStr (caught_error_inviting params))) PUndefined).
Proof.
  intros Hinv Hp. rewrite invite_run, Hinv. simpl. by rewrite Hp.
Qed.

(** X5: the message table is a plain object literal, so a code that names
    a member of [Object.prototype] (["constructor"], ["toString"], ...) is
    found by the lookup: [invite] then hands [response.error] the inherited
    member as its message, not a text. *)
Theorem invite_inherited_member_as_message e t' k :
  storageApi invite_call (table w) = (Rejected (VError e), t') →
  code e = PStr k →
  k ∈ object_prototype →
  (invite storageApi context params w).1
  = Return (response_error (VObject ("Object.prototype." +:+ k)) (PStr k)).
Proof.
  intros Hans Hcode Hk. rewrite invite_run, Hans. simpl. rewrite Hcode.
  rewrite js_lookup_inherited; [done| |done].
  unfold object_prototype in Hk.
  repeat (apply elem_of_cons in Hk as [->|Hk]); try reflexivity.
  by apply elem_of_nil in Hk.
Qed.

(** X6: [maintainers] never returns a success payload: whatever the storage
    service answers, a response it returns is an error with status 404 or
    500; when the call is fulfilled, or rejected with a falsy reason, it
    returns nothing and throws. *)
Theorem maintainers_returns_only_errors r :
  (maintainers storageApi context params w).1 = Return r →
  ∃ text, r = response_error (VPrim (PStr text)) (PNum 404) ∨
          r = response_error (VPrim (PStr text)) (PNum 500).
Proof.
  rewrite maintainers_run. simpl.
  destruct (truthy _); [|discriminate].
  destruct (strict_eq _ _); simpl; intros [= <-]; eauto.
Qed.

(** X7: for every truthy rejection whose [status] is not 404, be it an
    error object or not, [maintainers] logs [err.message] when that is
    truthy and the rejection value itself otherwise, then returns the
    generic 500 error. *)
Theorem maintainers_logs_detail v t' :
  storageApi list_call (table w) = (Rejected v, t') →
  truthy v = true →
  prop_of status v ≠ PNum 404 →
  maintainers storageApi context params w
  = (Return (response_error
               (VPrim (PStr ("Caught error fetching maintainers for " +:+
                             dquote +:+ pkg_spec params +:+ dquote +:+ ".")))
               (PNum 500)),
     {| table := t'; clock := clock w;
        trace := trace w ++
          [EvApi list_call;
           EvLogError (if prim_truthy (prop_of message v)
                       then VPrim (prop_of message v) else v)] |}).
Proof.
  intros Hans Hv Hst. rewrite maintainers_run, Hans. simpl. rewrite Hv.
  unfold strict_eq. rewrite bool_decide_eq_false_2 by done.
  by rewrite <- app_assoc.
Qed.

End StorageOutcomes.

Section ListingRoute.

Variable storageApi : ApiCall → gmap Z Maintainer → Settled * gmap Z Maintainer.
Variable NamespaceLookup : World → string → option Z.
Variable PackageLookup : World → string → string → string → option Z.
Variable CanWritePackage : World → string → Params → bool.
Variable IsNamespaceMember : World → string → string → bool.

(** X8: the GET route of [module.exports] is the bare [maintainers]
    handler: for every caller it sends, first thing, one request for page 0
    of the package's maintainers, records no authorization check, adds at
    most an error log line after the request, and leaves the table as the
    storage service left it. *)
Theorem listing_route_requests_page_zero (path : string) (h : Handler)
    context params w :
  (GET, path, h) ∈ module_exports storageApi NamespaceLookup PackageLookup
                                  CanWritePackage IsNamespaceMember →
  let call := getActiveMaintainers (namespace params) (host params) (name params) 0 in
  ∃ rest,
    trace (h context params w).2 = (trace w ++ EvApi call :: rest)%list ∧
    (rest = [] ∨ ∃ v, rest = [EvLogError v]) ∧
    table (h context params w).2 = (storageApi call (table w)).2.
Proof.
  intros Hin call. unfold module_exports in Hin.
  repeat (apply elem_of_cons in Hin as [Hin|Hin]); try discriminate Hin;
    [|by apply elem_of_nil in Hin].
  injection Hin as -> ->. rewrite maintainers_run. simpl. fold call.
  destruct (truthy _); [destruct (strict_eq _ _)|]; simpl.
  - exists []. eauto.
  - eexists [_]. rewrite <- app_assoc. eauto.
  - exists []. eauto.
Qed.

End ListingRoute.

(** ** The further properties at the sample requests *)

Lemma decline_two_pending_throws_witness :
  decline carol_context widget_params twice_invited_world
  = (Throw MultipleObjectsReturned, twice_invited_world).
Proof.
  apply (decline_two_pending_throws carol_context widget_params twice_invited_world
           7 3 5 carol_invitation 6 carol_invitation).
  - reflexivity.
  - reflexivity.
  - discriminate.
  - vm_compute. reflexivity.
  - unfold pending. simpl. repeat split.
  - vm_compute. reflexivity.
  - unfold pending. simpl. repeat split.
Defined.

Lemma decline_twice_not_found_witness :
  decline carol_context widget_params
          (decline carol_context widget_params invited_world).2
  = (Return invitation_not_found,
     (decline carol_context widget_params invited_world).2).
Proof.
  apply (decline_twice_not_found carol_context widget_params widget_params
           invited_world (decline carol_context widget_params invited_world).2
           "You have declined the invitation for carol to join acme@github/widget").
  vm_compute. reflexivity.
Defined.

Lemma decline_other_rows_untouched_witness :
  table (decline carol_context widget_params invited_world).2 !! 1
  = Some alice_maintainership.
Proof.
  apply (decline_other_rows_untouched carol_context widget_params invited_world
           1 alice_maintainership).
  - vm_compute. reflexivity.
  - intros mid pid [= <-] [= <-] (Hns & _). discriminate Hns.
Defined.

Lemma decline_never_activates_witness :
  table invited_world !! 1 = Some alice_maintainership.
Proof.
  apply (decline_never_activates carol_context widget_params invited_world
           1 alice_maintainership).
  - vm_compute. reflexivity.
  - reflexivity.
Defined.

Lemma invite_succeeds_without_truthy_error_witness :
  invite (storage_answers (Rejected (VPrim PUndefined)))
         alice_context widget_params no_invitation_world
  = (Return (response_message
               "bob invited to join the maintainers of acme@github/widget."),
     {| table := table no_invitation_world; clock := 500;
        trace := [EvApi (inviteMaintainer "acme" "github" "widget" "alice" "bob");
                  EvLogInfo "bob invited to join the maintainers of acme@github/widget by alice"] |}).
Proof.
  apply (invite_succeeds_without_truthy_error
           (storage_answers (Rejected (VPrim PUndefined)))
           alice_context widget_params no_invitation_world
           (Rejected (VPrim PUndefined)) (table no_invitation_world)).
  - reflexivity.
  - reflexivity.
Defined.

Lemma invite_primitive_rejection_witness :
  (invite (storage_answers (Rejected (VPrim (PStr "boom"))))
          alice_context widget_params no_invitation_world).1
  = Return (response_error (VPrim (PStr (caught_error_inviting widget_params)))
                           PUndefined).
Proof.
  apply (invite_primitive_rejection
           (storage_answers (Rejected (VPrim (PStr "boom"))))
           alice_context widget_params no_invitation_world
           (PStr "boom") (table no_invitation_world)).
  - reflexivity.
  - reflexivity.
Defined.

Lemma invite_inherited_member_as_message_witness :
  (invite (storage_answers (Rejected (VError constructor_error)))
          alice_context widget_params no_invitation_world).1
  = Return (response_error (VObject "Object.prototype.constructor")
                           (PStr "constructor")).
Proof.
  apply (invite_inherited_member_as_message
           (storage_answers (Rejected (VError constructor_error)))
           alice_context widget_params no_invitation_world
           constructor_error (table no_invitation_world) "constructor").
  - reflexivity.
  - reflexivity.
  - left.
Defined.

Lemma maintainers_returns_only_errors_witness :
  ∃ text,
    response_error
      (VPrim (PStr (dquote +:+ "acme@github/widget" +:+ dquote +:+ " does not exist.")))
      (PNum 404)
    = response_error (VPrim (PStr text)) (PNum 404) ∨
    response_error
      (VPrim (PStr (dquote +:+ "acme@github/widget" +:+ dquote +:+ " does not exist.")))
      (PNum 404)
    = response_error (VPrim (PStr text)) (PNum 500).
Proof.
  apply (maintainers_returns_only_errors
           (storage_answers (Rejected (VError package_dne)))
           alice_context widget_params no_invitation_world).
  vm_compute. reflexivity.
Defined.

Lemma maintainers_logs_detail_witness :
  maintainers (storage_answers (Rejected (VError connection_refused)))
              alice_context widget_params no_invitation_world
  = (Return (response_error
               (VPrim (PStr ("Caught error fetching maintainers for " +:+
                             dquote +:+ "acme@github/widget" +:+ dquote +:+ ".")))
               (PNum 500)),
     {| table := table no_invitation_world; clock := 500;
        trace := [EvApi (getActiveMaintainers "acme" "github" "widget" 0);
                  EvLogError (VPrim (PStr "connect ECONNREFUSED 127.0.0.1:5432"))] |}).
Proof.
  apply (maintainers_logs_detail
           (storage_answers (Rejected (VError connection_refused)))
           alice_context widget_params no_invitation_world
           (VError connection_refused) (table no_invitation_world)).
  - reflexivity.
  - reflexivity.
  - discriminate.
Defined.

Lemma listing_route_requests_page_zero_witness :
  let api := storage_answers (Rejected (VError connection_refused)) in
  ∃ rest,
    trace (maintainers api carol_request widget_params no_invitation_world).2
    = (trace no_invitation_world
       ++ EvApi (getActiveMaintainers "acme" "github" "widget" 0) :: rest)%list ∧
    (rest = [] ∨ ∃ v, rest = [EvLogError v]) ∧
    table (maintainers api carol_request widget_params no_invitation_world).2
    = (api (getActiveMaintainers "acme" "github" "widget" 0)
           (table no_invitation_world)).2.
Proof.
  intros api.
  apply (listing_route_requests_page_zero api
           sample_namespaces sample_packages sample_can_write sample_is_member
           (packages_prefix +:+ "/maintainers") (maintainers api)
           carol_request widget_params no_invitation_world).
  left.
Defined.

